(** * spectest.go: per-host query metrics, retry budget and summary printing

    A shallow embedding of [src/spectest.go]: the [hostMetrics] store kept by
    [testQueryObserver], its [ObserveQuery] and [GetMetrics] methods, and the
    retry policy [RT].  The gocql client library is an external collaborator;
    only the types and fields the program reads from it are declared here. *)

From Stdlib Require Import ZArith Lia.
From stdpp Require Import base strings gmap list pretty.

Local Open Scope Z_scope.

(** ** Go's [int]

    On the 64-bit platforms gocql targets, [int] is a 64-bit two's-complement
    integer: [+] wraps around silently, [/] truncates toward zero and panics
    on a zero divisor, and the one overflowing quotient (the most negative
    value divided by -1) wraps as well. *)
Module GoInt.

Definition min_int : Z := - 2 ^ 63.
Definition max_int : Z := 2 ^ 63 - 1.

Definition in_range (z : Z) : Prop := min_int <= z <= max_int.

Definition wrap (z : Z) : Z := (z + 2 ^ 63) mod 2 ^ 64 - 2 ^ 63.

Definition add (a b : Z) : Z := wrap (a + b).

(** The run-time panics the program can raise. *)
Inductive panic : Type := IntegerDivideByZero.

Definition div (a b : Z) : panic + Z :=
  if decide (b = 0) then inl IntegerDivideByZero else inr (wrap (a ÷ b)).

(** [int(x)] for an [int64] value [x]: both types are 64 bits wide. *)
Definition of_int64 (x : Z) : Z := wrap x.

End GoInt.

(** ** What the program uses of gocql *)
Module gocql.

(** Go's [error] interface: [None] is [nil]. *)
Definition error : Type := string.

(** The per-host metrics carried by an observed query
    ([Attempts int], [TotalLatency int64] in nanoseconds). *)
Module QueryMetrics.
Record t : Type := { Attempts : Z; TotalLatency : Z }.
End QueryMetrics.

(** The fields of [gocql.ObservedQuery] read by [ObserveQuery].
    [Host_ConnectAddress] is [q.Host.ConnectAddress().String()];
    [Start] and [End_] are instants in nanoseconds. *)
Record ObservedQuery : Type := {
  Statement : string;
  Rows : Z;
  Start : Z; End_ : Z;
  Host_ConnectAddress : string;
  Metrics : QueryMetrics.t;
  Err : option error
}.

Inductive RetryType : Type := Retry | RetryNextHost | Ignore | Rethrow.

(** The one method of the [RetryableQuery] interface the policy calls. *)
Class RetryableQuery (Q : Type) : Type := { Attempts : Q → Z }.

End gocql.

(** ** The observer *)

Record hostMetrics : Type := { attempts : Z; latency : Z }.

(** [metrics] is a Go [map[string]*hostMetrics].  Its only writer (line 40)
    stores a freshly allocated, non-nil record that nothing else retains, so
    the map is modelled as a finite map to the records themselves; a missing
    key reads as a nil pointer. *)
Record testQueryObserver : Type := {
  metrics : gmap string hostMetrics;
  verbose : bool
}.

(** What the program writes to standard output.  The verbose line of
    [ObserveQuery] is kept as the values handed to [Printf]; the summary
    lines of [GetMetrics] are kept as the text printed. *)
Inductive stdout : Type :=
  | ObservedLine (q : gocql.ObservedQuery) (host : string)
  | Text (s : string).

Definition ObserveQuery (o : testQueryObserver) (q : gocql.ObservedQuery)
  : testQueryObserver * list stdout :=
  let host := gocql.Host_ConnectAddress q in
  let curMetric := metrics o !! host in
  let curAttempts := match curMetric with Some m => attempts m | None => 0 end in
  let curLatency := match curMetric with Some m => latency m | None => 0 end in
  let metrics' :=
    match gocql.Err q with
    | None =>
        <[host := {| attempts :=
                       GoInt.add (gocql.QueryMetrics.Attempts (gocql.Metrics q))
                                 curAttempts;
                     latency :=
                       GoInt.add curLatency
                         (GoInt.of_int64
                            (GoInt.wrap
                               (gocql.QueryMetrics.TotalLatency (gocql.Metrics q)
                                ÷ 1000000))) |}]> (metrics o)
    | Some _ => metrics o
    end in
  ({| metrics := metrics'; verbose := verbose o |},
   if verbose o then [ObservedLine q host] else []).

(** The store after an observation, and after a sequence of observations
    delivered one at a time. *)
Definition observe (o : testQueryObserver) (q : gocql.ObservedQuery)
  : testQueryObserver := (ObserveQuery o q).1.

Definition observe_all (o : testQueryObserver) (evs : list gocql.ObservedQuery)
  : testQueryObserver := foldl observe o evs.

(** The observer [main] creates: an empty map, not verbose. *)
Definition main_observer : testQueryObserver :=
  {| metrics := ∅; verbose := false |}.

(** The text of a summary line,
    ["Host: %s, Attempts: %v, Avg Latency: %vms\n"]: [%s] copies the host
    string and [%v] writes an [int] in decimal, with a minus sign when
    negative. *)
Definition newline : string := String (Ascii.ascii_of_nat 10) EmptyString.

Definition render_summary (h : string) (n avg : Z) : string :=
  "Host: " +:+ h +:+ ", Attempts: " +:+ pretty n
  +:+ ", Avg Latency: " +:+ pretty avg +:+ "ms" +:+ newline.

(** [GetMetrics] ranges over the map.  Go leaves the order of a map range
    unspecified, so the loop body is run over an enumeration of the entries
    and any enumeration is a possible run.  A panic stops the loop; what was
    printed before it stays printed. *)
Fixpoint GetMetrics_range (entries : list (string * hostMetrics))
  : list stdout * option GoInt.panic :=
  match entries with
  | [] => ([], None)
  | (h, m) :: rest =>
      match GoInt.div (latency m) (attempts m) with
      | inl p => ([], Some p)
      | inr avg =>
          let '(out, r) := GetMetrics_range rest in
          (Text (render_summary h (attempts m) avg) :: out, r)
      end
  end.

Definition range_order (o : testQueryObserver)
    (entries : list (string * hostMetrics)) : Prop :=
  entries ≡ₚ map_to_list (metrics o).

Definition GetMetrics (o : testQueryObserver)
    (res : list stdout * option GoInt.panic) : Prop :=
  ∃ entries, range_order o entries ∧ GetMetrics_range entries = res.

(** One run of [GetMetrics], in the enumeration order of the model's map. *)
Definition GetMetrics_run (o : testQueryObserver)
  : list stdout * option GoInt.panic :=
  GetMetrics_range (map_to_list (metrics o)).

(** ** The retry policy *)

Record RT : Type := { num : Z }.

Definition Attempt {Q : Type} `{gocql.RetryableQuery Q} (rt : RT) (q : Q) : bool :=
  bool_decide (gocql.Attempts q <= num rt).

Definition GetRetryType (rt : RT) (err : gocql.error) : gocql.RetryType :=
  gocql.Rethrow.

(** [cluster.RetryPolicy = &RT{num: 3}] *)
Definition main_RetryPolicy : RT := {| num := 3 |}.

(** A query known only by the number of attempts it has made. *)
Record attempted_query : Type := { attempts_made : Z }.

#[export] Instance attempted_query_retryable : gocql.RetryableQuery attempted_query :=
  {| gocql.Attempts := attempts_made |}.

(** ** Vocabulary for the properties *)

(** What a success event contributes: its attempt count and its total
    latency in milliseconds, as line 40 computes them. *)
Definition event_attempts (q : gocql.ObservedQuery) : Z :=
  gocql.QueryMetrics.Attempts (gocql.Metrics q).

Definition event_millis (q : gocql.ObservedQuery) : Z :=
  gocql.QueryMetrics.TotalLatency (gocql.Metrics q) ÷ 1000000.

(** What lines 32-38 read for a host: the fields of its record, or zeros
    when the map has no record for it. *)
Definition recorded_attempts (o : testQueryObserver) (h : string) : Z :=
  match metrics o !! h with Some m => attempts m | None => 0 end.

Definition recorded_latency (o : testQueryObserver) (h : string) : Z :=
  match metrics o !! h with Some m => latency m | None => 0 end.

(** The success events of a sequence, and those for one host. *)
Definition successes (evs : list gocql.ObservedQuery) : list gocql.ObservedQuery :=
  filter (λ q, gocql.Err q = None) evs.

Definition successes_on (h : string) (evs : list gocql.ObservedQuery)
  : list gocql.ObservedQuery :=
  filter (λ q, gocql.Err q = None ∧ gocql.Host_ConnectAddress q = h) evs.

Definition sum_attempts (evs : list gocql.ObservedQuery) : Z :=
  foldr (λ q acc, event_attempts q + acc) 0 evs.

Definition sum_millis (evs : list gocql.ObservedQuery) : Z :=
  foldr (λ q acc, event_millis q + acc) 0 evs.

(** The sum of the attempts recorded in the store. *)
Definition store_attempts (m : gmap string hostMetrics) : Z :=
  map_fold (λ _ hm acc, attempts hm + acc) 0 m.

(** The line [GetMetrics] prints for an entry whose attempts are not zero:
    the average is the truncated quotient of the two fields. *)
Definition summary_of (e : string * hostMetrics) : stdout :=
  Text (render_summary e.1 (attempts e.2)
          (GoInt.wrap (latency e.2 ÷ attempts e.2))).

(** ** Sample values *)

Definition ok_event (h : string) (a tl : Z) : gocql.ObservedQuery :=
  {| gocql.Statement := "INSERT INTO example.tweet (id, timeline, data) VALUES (?, 'me', ?)";
     gocql.Rows := 0;
     gocql.Start := 0;
     gocql.End_ := tl;
     gocql.Host_ConnectAddress := h;
     gocql.Metrics := {| gocql.QueryMetrics.Attempts := a;
                         gocql.QueryMetrics.TotalLatency := tl |};
     gocql.Err := None |}.

Definition failed_event (h : string) (a tl : Z) : gocql.ObservedQuery :=
  {| gocql.Statement := "INSERT INTO example.tweet (id, timeline, data) VALUES (?, 'me', ?)";
     gocql.Rows := 0;
     gocql.Start := 0;
     gocql.End_ := tl;
     gocql.Host_ConnectAddress := h;
     gocql.Metrics := {| gocql.QueryMetrics.Attempts := a;
                         gocql.QueryMetrics.TotalLatency := tl |};
     gocql.Err := Some "gocql: no response received from cassandra within timeout period" |}.

Definition two_host_observer : testQueryObserver :=
  {| metrics := <["10.0.0.1" := {| attempts := 4; latency := 400 |}]>
                  (<["10.0.0.2" := {| attempts := 3; latency := 1000 |}]> ∅);
     verbose := false |}.

(** A store holding an entry with zero attempts, as a success event reporting
    zero attempts leaves it. *)
Definition zero_attempts_observer : testQueryObserver :=
  {| metrics := <["10.0.0.3" := {| attempts := 0; latency := 0 |}]> ∅;
     verbose := false |}.

Definition sample_events : list gocql.ObservedQuery :=
  [ ok_event "10.0.0.1" 1 12000000;
    failed_event "10.0.0.2" 4 40000000000;
    ok_event "10.0.0.2" 2 25500000;
    ok_event "10.0.0.1" 1 999999 ].

(** ** Runs of the observer *)

(** A sequence of calls to [ObserveQuery], one after the other: the observer
    they leave and everything they print, in order. *)
Fixpoint ObserveQuery_seq (o : testQueryObserver) (evs : list gocql.ObservedQuery)
  : testQueryObserver * list stdout :=
  match evs with
  | [] => (o, [])
  | q :: rest =>
      let '(o1, out1) := ObserveQuery o q in
      let '(o2, out2) := ObserveQuery_seq o1 rest in
      (o2, out1 ++ out2)
  end.

(** The hosts that have a success event in a sequence. *)
Definition success_hosts (evs : list gocql.ObservedQuery) : gset string :=
  list_to_set (gocql.Host_ConnectAddress <$> successes evs).

(** The total latency, in nanoseconds, that a list of events reports. *)
Definition sum_latency (evs : list gocql.ObservedQuery) : Z :=
  foldr (λ q acc, gocql.QueryMetrics.TotalLatency (gocql.Metrics q) + acc) 0 evs.

(** A store with a sound entry and an entry of zero attempts. *)
Definition mixed_observer : testQueryObserver :=
  {| metrics := <["10.0.0.1" := {| attempts := 4; latency := 400 |}]>
                  (<["10.0.0.3" := {| attempts := 0; latency := 0 |}]> ∅);
     verbose := true |}.

(** * Properties *)

(** ** Go integer arithmetic *)
Section GoIntFacts.

Lemma wrap_in_range (z : Z) : GoInt.in_range (GoInt.wrap z).
Proof.
  unfold GoInt.in_range, GoInt.wrap, GoInt.min_int, GoInt.max_int.
  pose proof (Z.mod_pos_bound (z + 2 ^ 63) (2 ^ 64) ltac:(lia)). lia.
Qed.

Lemma wrap_id (z : Z) : GoInt.in_range z → GoInt.wrap z = z.
Proof.
  unfold GoInt.in_range, GoInt.wrap, GoInt.min_int, GoInt.max_int. intros Hz.
  rewrite Z.mod_small by lia. lia.
Qed.

Lemma wrap_add_l (a b : Z) : GoInt.wrap (GoInt.wrap a + b) = GoInt.wrap (a + b).
Proof.
  unfold GoInt.wrap. f_equal.
  replace ((a + 2 ^ 63) mod 2 ^ 64 - 2 ^ 63 + b + 2 ^ 63)
    with ((a + 2 ^ 63) mod 2 ^ 64 + b) by lia.
  rewrite Zplus_mod_idemp_l. f_equal. lia.
Qed.

Lemma wrap_add_r (a b : Z) : GoInt.wrap (a + GoInt.wrap b) = GoInt.wrap (a + b).
Proof. rewrite (Z.add_comm a), wrap_add_l. f_equal. lia. Qed.

Lemma wrap_wrap (z : Z) : GoInt.wrap (GoInt.wrap z) = GoInt.wrap z.
Proof. apply wrap_id, wrap_in_range. Qed.

(** Two integers with the same representation differ by a multiple of 2^64. *)
Lemma wrap_eq_inv (a b : Z) :
  GoInt.wrap a = GoInt.wrap b → ∃ k, a - b = k * 2 ^ 64.
Proof.
  unfold GoInt.wrap. intros H.
  assert (Hm : (a + 2 ^ 63) mod 2 ^ 64 = (b + 2 ^ 63) mod 2 ^ 64) by lia.
  pose proof (Z.div_mod (a + 2 ^ 63) (2 ^ 64) ltac:(lia)) as Ha.
  pose proof (Z.div_mod (b + 2 ^ 63) (2 ^ 64) ltac:(lia)) as Hb.
  exists ((a + 2 ^ 63) / 2 ^ 64 - (b + 2 ^ 63) / 2 ^ 64). lia.
Qed.

Lemma of_int64_wrap (z : Z) : GoInt.of_int64 (GoInt.wrap z) = GoInt.wrap z.
Proof. apply wrap_wrap. Qed.

Lemma div_nonzero (a b : Z) : b ≠ 0 → GoInt.div a b = inr (GoInt.wrap (a ÷ b)).
Proof. intros Hb. unfold GoInt.div. destruct (decide (b = 0)); congruence. Qed.

Lemma div_zero (a : Z) : GoInt.div a 0 = inl GoInt.IntegerDivideByZero.
Proof. reflexivity. Qed.

End GoIntFacts.

(** ** One observation *)
Section ObserveFacts.

Implicit Types (o : testQueryObserver) (q : gocql.ObservedQuery) (h : string).

Lemma observe_verbose o q : verbose (observe o q) = verbose o.
Proof. reflexivity. Qed.

Lemma observe_error o q : gocql.Err q ≠ None → observe o q = o.
Proof.
  intros Herr. unfold observe, ObserveQuery; simpl.
  destruct (gocql.Err q); [by destruct o | congruence].
Qed.

(** The record written at line 40, with the conversions folded into one
    wrap-around. *)
Lemma observe_success o q :
  gocql.Err q = None →
  metrics (observe o q)
  = <[gocql.Host_ConnectAddress q :=
        {| attempts :=
             GoInt.wrap (recorded_attempts o (gocql.Host_ConnectAddress q)
                         + event_attempts q);
           latency :=
             GoInt.wrap (recorded_latency o (gocql.Host_ConnectAddress q)
                         + event_millis q) |}]> (metrics o).
Proof.
  intros Hok. unfold observe, ObserveQuery; simpl. rewrite Hok.
  unfold GoInt.add, recorded_attempts, recorded_latency, event_attempts, event_millis.
  rewrite of_int64_wrap, wrap_add_r. do 3 f_equal. lia.
Qed.

Lemma observe_success_lookup o q :
  gocql.Err q = None →
  metrics (observe o q) !! gocql.Host_ConnectAddress q
  = Some {| attempts :=
              GoInt.wrap (recorded_attempts o (gocql.Host_ConnectAddress q)
                          + event_attempts q);
            latency :=
              GoInt.wrap (recorded_latency o (gocql.Host_ConnectAddress q)
                          + event_millis q) |}.
Proof. intros Hok. rewrite observe_success by done. apply lookup_insert_eq. Qed.

Lemma observe_lookup_other o q h :
  h ≠ gocql.Host_ConnectAddress q →
  metrics (observe o q) !! h = metrics o !! h.
Proof.
  intros Hne. destruct (gocql.Err q) as [e|] eqn:He.
  - by rewrite observe_error by congruence.
  - rewrite observe_success by done. by apply lookup_insert_ne.
Qed.

Lemma observe_all_cons o q evs :
  observe_all o (q :: evs) = observe_all (observe o q) evs.
Proof. reflexivity. Qed.

Lemma observe_all_verbose o evs : verbose (observe_all o evs) = verbose o.
Proof.
  revert o. induction evs as [|q evs IH]; intros o; [done|].
  rewrite observe_all_cons, IH. apply observe_verbose.
Qed.

End ObserveFacts.

(** ** Sums over the store *)
Section StoreSums.

Implicit Types (m : gmap string hostMetrics) (h : string) (x : hostMetrics).

Lemma store_attempts_empty : store_attempts ∅ = 0.
Proof. unfold store_attempts. by rewrite map_fold_empty. Qed.

Lemma store_attempts_insert_fresh m h x :
  m !! h = None → store_attempts (<[h:=x]> m) = attempts x + store_attempts m.
Proof.
  intros Hh. unfold store_attempts.
  rewrite map_fold_insert_L; [done| |done]. intros; lia.
Qed.

Lemma store_attempts_lookup m h x :
  m !! h = Some x → store_attempts m = attempts x + store_attempts (delete h m).
Proof.
  intros Hh. unfold store_attempts.
  rewrite (map_fold_delete_L _ _ h x m); [done| |done]. intros; lia.
Qed.

(** Overwriting a host's entry replaces its share of the sum. *)
Lemma store_attempts_insert m h x :
  store_attempts (<[h:=x]> m)
  = store_attempts m
    - match m !! h with Some y => attempts y | None => 0 end
    + attempts x.
Proof.
  destruct (m !! h) as [y|] eqn:Hh.
  - rewrite (store_attempts_lookup m h y) by done.
    rewrite <- insert_delete_eq.
    rewrite store_attempts_insert_fresh by apply lookup_delete_eq. lia.
  - rewrite store_attempts_insert_fresh by done. lia.
Qed.

Lemma store_attempts_nonneg m :
  (∀ h x, m !! h = Some x → 0 <= attempts x) → 0 <= store_attempts m.
Proof.
  induction m as [|h x m Hh IH] using map_ind; intros Hall.
  - rewrite store_attempts_empty. lia.
  - rewrite store_attempts_insert_fresh by done.
    pose proof (Hall h x (lookup_insert_eq _ _ _)).
    assert (0 <= store_attempts m); [|lia].
    apply IH. intros h' x' Hx'. apply (Hall h' x').
    rewrite lookup_insert_ne; [done|]. intros ->. congruence.
Qed.

(** With no negative count in the store, one entry is at most the sum. *)
Lemma store_attempts_entry_le m h x :
  (∀ h' x', m !! h' = Some x' → 0 <= attempts x') →
  m !! h = Some x → attempts x <= store_attempts m.
Proof.
  intros Hall Hh. rewrite (store_attempts_lookup m h x) by done.
  assert (0 <= store_attempts (delete h m)); [|lia].
  apply store_attempts_nonneg. intros h' x' Hx'.
  apply (Hall h' x'). rewrite lookup_delete_Some in Hx'. tauto.
Qed.

End StoreSums.

(** ** Sequences of observations *)
Section Sequences.

Implicit Types (o : testQueryObserver) (q : gocql.ObservedQuery) (h : string)
  (evs : list gocql.ObservedQuery).

Lemma successes_cons_ok q evs :
  gocql.Err q = None → successes (q :: evs) = q :: successes evs.
Proof. intros Hok. unfold successes. by rewrite filter_cons_True. Qed.

Lemma successes_cons_error q evs :
  gocql.Err q ≠ None → successes (q :: evs) = successes evs.
Proof. intros Herr. unfold successes. by rewrite filter_cons_False. Qed.

Lemma sum_attempts_nonneg evs :
  Forall (λ q, 0 <= event_attempts q) evs → 0 <= sum_attempts evs.
Proof. induction 1; simpl; lia. Qed.

Lemma recorded_attempts_observe_other o q h :
  ¬ (gocql.Err q = None ∧ gocql.Host_ConnectAddress q = h) →
  metrics (observe o q) !! h = metrics o !! h.
Proof.
  intros Hno. destruct (gocql.Err q) as [e|] eqn:He.
  - by rewrite observe_error by congruence.
  - apply observe_lookup_other. intros ->. by apply Hno.
Qed.

(** The sum of the recorded attempts moves by the event's attempts, up to
    the wrap-around of the entry that is written. *)
Lemma store_attempts_observe o q :
  gocql.Err q = None →
  store_attempts (metrics (observe o q))
  = store_attempts (metrics o)
    - recorded_attempts o (gocql.Host_ConnectAddress q)
    + GoInt.wrap (recorded_attempts o (gocql.Host_ConnectAddress q)
                  + event_attempts q).
Proof.
  intros Hok. rewrite observe_success by done.
  rewrite store_attempts_insert. reflexivity.
Qed.

Lemma store_attempts_observe_all_wrap o evs :
  GoInt.wrap (store_attempts (metrics (observe_all o evs)))
  = GoInt.wrap (store_attempts (metrics o) + sum_attempts (successes evs)).
Proof.
  revert o. induction evs as [|q evs IH]; intros o.
  - simpl. f_equal. lia.
  - rewrite observe_all_cons, IH.
    destruct (gocql.Err q) as [e|] eqn:He.
    + rewrite observe_error, successes_cons_error by congruence. done.
    + rewrite successes_cons_ok, store_attempts_observe by done. simpl.
      set (s := store_attempts (metrics o)).
      set (p := recorded_attempts o (gocql.Host_ConnectAddress q)).
      replace (s - p + GoInt.wrap (p + event_attempts q)
               + sum_attempts (successes evs))
        with (GoInt.wrap (p + event_attempts q)
              + (s - p + sum_attempts (successes evs))) by lia.
      rewrite wrap_add_l. f_equal. lia.
Qed.

Lemma store_attempts_observe_all_exact o evs :
  (∀ h x, metrics o !! h = Some x → 0 <= attempts x) →
  Forall (λ q, 0 <= event_attempts q) (successes evs) →
  store_attempts (metrics o) + sum_attempts (successes evs) <= GoInt.max_int →
  store_attempts (metrics (observe_all o evs))
  = store_attempts (metrics o) + sum_attempts (successes evs).
Proof.
  revert o. induction evs as [|q evs IH]; intros o Hpos Hevs Hmax.
  - simpl. lia.
  - rewrite observe_all_cons.
    destruct (gocql.Err q) as [e|] eqn:He.
    + rewrite successes_cons_error in * by congruence.
      rewrite observe_error by congruence. by apply IH.
    + rewrite successes_cons_ok in * by done.
      apply Forall_cons in Hevs as [Hq Hevs]. simpl in Hmax.
      pose proof (sum_attempts_nonneg _ Hevs) as Hrest.
      set (h := gocql.Host_ConnectAddress q) in *.
      assert (Hp : 0 <= recorded_attempts o h <= store_attempts (metrics o)).
      { unfold recorded_attempts. destruct (metrics o !! h) as [x|] eqn:Hx.
        - split; [by eapply Hpos | by eapply store_attempts_entry_le].
        - split; [lia | by apply store_attempts_nonneg]. }
      assert (Hw : GoInt.wrap (recorded_attempts o h + event_attempts q)
                   = recorded_attempts o h + event_attempts q).
      { apply wrap_id. unfold GoInt.in_range, GoInt.min_int, GoInt.max_int in *.
        lia. }
      assert (Hs : store_attempts (metrics (observe o q))
                   = store_attempts (metrics o) + event_attempts q).
      { rewrite store_attempts_observe by done. fold h. rewrite Hw. lia. }
      rewrite IH; [rewrite Hs; simpl; lia| |done|rewrite Hs; lia].
      intros h' x. rewrite observe_success by done. fold h. rewrite Hw.
      rewrite lookup_insert. case_decide.
      * intros [= <-]. simpl. lia.
      * apply Hpos.
Qed.

Lemma successes_on_cons_hit q evs :
  gocql.Err q = None →
  successes_on (gocql.Host_ConnectAddress q) (q :: evs)
  = q :: successes_on (gocql.Host_ConnectAddress q) evs.
Proof. intros Hok. unfold successes_on. by rewrite filter_cons_True. Qed.

Lemma successes_on_cons_miss q evs h :
  ¬ (gocql.Err q = None ∧ gocql.Host_ConnectAddress q = h) →
  successes_on h (q :: evs) = successes_on h evs.
Proof. intros Hno. unfold successes_on. by rewrite filter_cons_False. Qed.

(** The entry of a host after a sequence of observations: untouched when the
    sequence holds no success event for the host, and otherwise the prior
    entry plus the contributions of exactly those events. *)
Lemma observe_all_lookup o evs h :
  metrics (observe_all o evs) !! h
  = match successes_on h evs with
    | [] => metrics o !! h
    | _ :: _ =>
        Some {| attempts :=
                  GoInt.wrap (recorded_attempts o h
                              + sum_attempts (successes_on h evs));
                latency :=
                  GoInt.wrap (recorded_latency o h
                              + sum_millis (successes_on h evs)) |}
    end.
Proof.
  revert o. induction evs as [|q evs IH]; intros o; [done|].
  rewrite observe_all_cons, IH.
  destruct (decide (gocql.Err q = None ∧ gocql.Host_ConnectAddress q = h))
    as [[Hok <-]|Hno].
  - rewrite successes_on_cons_hit by done.
    unfold recorded_attempts at 1, recorded_latency at 1.
    rewrite observe_success_lookup by done. simpl.
    destruct (successes_on _ evs) as [|q' rest]; simpl.
    + do 3 f_equal; lia.
    + rewrite !wrap_add_l. do 3 f_equal; lia.
  - rewrite successes_on_cons_miss by done.
    unfold recorded_attempts, recorded_latency.
    by rewrite recorded_attempts_observe_other.
Qed.

End Sequences.

(** ** The summary loop *)
Section Summary.

Implicit Types (o : testQueryObserver) (entries : list (string * hostMetrics)).

(** A run prints the summary lines of the entries it meets, in order, up to
    the first entry with zero attempts, where it panics. *)
Lemma GetMetrics_range_spec entries :
  ∃ printed rest,
    entries = printed ++ rest
    ∧ Forall (λ e, attempts e.2 ≠ 0) printed
    ∧ (GetMetrics_range entries).1 = summary_of <$> printed
    ∧ match rest with
      | [] => (GetMetrics_range entries).2 = None
      | e :: _ =>
          attempts e.2 = 0
          ∧ (GetMetrics_range entries).2 = Some GoInt.IntegerDivideByZero
      end.
Proof.
  induction entries as [|[h m] entries (printed & rest & -> & Hnz & Hout & Hres)].
  - exists [], []. by repeat split.
  - destruct (decide (attempts m = 0)) as [Hz|Hz].
    + exists [], ((h, m) :: printed ++ rest). simpl. rewrite Hz, div_zero.
      by repeat split.
    + exists ((h, m) :: printed), rest. simpl. rewrite div_nonzero by done.
      destruct (GetMetrics_range (printed ++ rest)) as [out r]; simpl in *.
      split; [done|]. split; [by constructor|]. split; [by rewrite Hout|done].
Qed.

Lemma GetMetrics_range_nonzero entries :
  Forall (λ e, attempts e.2 ≠ 0) entries →
  GetMetrics_range entries = (summary_of <$> entries, None).
Proof.
  induction 1 as [|[h m] entries Hz _ IH]; [done|].
  simpl in *. rewrite div_nonzero by done. by rewrite IH.
Qed.

Lemma entries_of_store o entries (P : string * hostMetrics → Prop) :
  range_order o entries →
  Forall P entries ↔ ∀ h x, metrics o !! h = Some x → P (h, x).
Proof.
  unfold range_order. intros ->. rewrite Forall_forall. split.
  - intros H h x Hx. by apply H, elem_of_map_to_list.
  - intros H [h x] Hx. by apply H, elem_of_map_to_list.
Qed.

Lemma range_order_length o entries :
  range_order o entries → length entries = size (metrics o).
Proof. unfold range_order. intros ->. apply length_map_to_list. Qed.

Lemma GetMetrics_run_possible o : GetMetrics o (GetMetrics_run o).
Proof. exists (map_to_list (metrics o)). split; [red|]; reflexivity. Qed.

End Summary.

(** ** Two stores used as examples *)
Section Examples.

Lemma zero_attempts_observer_entries :
  map_to_list (metrics zero_attempts_observer)
  = [("10.0.0.3", {| attempts := 0; latency := 0 |})].
Proof. vm_compute. reflexivity. Qed.

(** Whatever the order of the range, the store with one zero-attempt entry
    makes [GetMetrics] panic before it prints anything. *)
Lemma GetMetrics_zero_attempts_observer res :
  GetMetrics zero_attempts_observer res →
  res = ([], Some GoInt.IntegerDivideByZero).
Proof.
  intros (entries & Hord & <-). red in Hord.
  rewrite zero_attempts_observer_entries in Hord.
  apply Permutation_singleton_r in Hord as ->. reflexivity.
Qed.

Lemma sum_attempts_pos (evs : list gocql.ObservedQuery) :
  Forall (λ q, 1 <= event_attempts q) evs → evs ≠ [] → 1 <= sum_attempts evs.
Proof.
  intros Hall Hne. destruct Hall as [|q evs Hq Hall]; [done|]. simpl.
  assert (0 <= sum_attempts evs); [|lia].
  apply sum_attempts_nonneg. eapply Forall_impl; [exact Hall|].
  simpl. intros; lia.
Qed.

End Examples.

(** * The specification's properties, settled on the code *)

(** C1: an observed query whose error is non-nil leaves the HostMetrics store
    exactly as it was: the map is the same map, so no entry is created for
    the event's host and no existing entry's attempts or latency changes. *)
Theorem ObserveQuery_error_store_unchanged (o : testQueryObserver)
    (q : gocql.ObservedQuery) :
  gocql.Err q ≠ None →
  metrics (ObserveQuery o q).1 = metrics o
  ∧ (∀ h, metrics (ObserveQuery o q).1 !! h = metrics o !! h)
  ∧ (metrics o !! gocql.Host_ConnectAddress q = None →
     metrics (ObserveQuery o q).1 !! gocql.Host_ConnectAddress q = None).
Proof.
  intros Herr. unfold ObserveQuery; simpl.
  destruct (gocql.Err q) as [e|]; [|congruence].
  repeat split; auto.
Qed.

Lemma ObserveQuery_error_store_unchanged_witness :
  gocql.Err (failed_event "10.0.0.9" 4 40000000000) ≠ None
  ∧ metrics (ObserveQuery two_host_observer
               (failed_event "10.0.0.9" 4 40000000000)).1
    = metrics two_host_observer
  ∧ metrics (ObserveQuery two_host_observer
               (failed_event "10.0.0.9" 4 40000000000)).1 !! "10.0.0.9"
    = None.
Proof.
  assert (Herr : gocql.Err (failed_event "10.0.0.9" 4 40000000000) ≠ None)
    by (simpl; discriminate).
  split; [exact Herr|].
  destruct (ObserveQuery_error_store_unchanged two_host_observer
              (failed_event "10.0.0.9" 4 40000000000) Herr) as (Hsame & _ & Hnew).
  split; [exact Hsame|]. apply Hnew. vm_compute. reflexivity.
Defined.

(** C2: a success event for host h reporting a attempts and total latency l
    makes the entry of h hold (a0 + a, l0 + l in milliseconds), in Go's [int]
    arithmetic, where (a0, l0) is the prior entry or (0, 0) when h had none,
    and leaves every other host alone.  Hence after any sequence of events
    delivered to an empty store the sum of the recorded attempts agrees, as a
    Go [int], with the sum of the attempts of the success events alone; the
    two sums are the same number whenever no success event reports a negative
    count and their total fits an [int]. *)
Theorem ObserveQuery_success_merges_event :
  (∀ o q,
     gocql.Err q = None →
     metrics (ObserveQuery o q).1 !! gocql.Host_ConnectAddress q
     = Some {| attempts :=
                 GoInt.add (recorded_attempts o (gocql.Host_ConnectAddress q))
                           (event_attempts q);
               latency :=
                 GoInt.add (recorded_latency o (gocql.Host_ConnectAddress q))
                           (event_millis q) |}
     ∧ ∀ h, h ≠ gocql.Host_ConnectAddress q →
            metrics (ObserveQuery o q).1 !! h = metrics o !! h)
  ∧ (∀ evs v,
       GoInt.wrap (store_attempts
                     (metrics (observe_all {| metrics := ∅; verbose := v |} evs)))
       = GoInt.wrap (sum_attempts (successes evs)))
  ∧ (∀ evs v,
       Forall (λ q, 0 <= event_attempts q) (successes evs) →
       sum_attempts (successes evs) <= GoInt.max_int →
       store_attempts (metrics (observe_all {| metrics := ∅; verbose := v |} evs))
       = sum_attempts (successes evs)).
Proof.
  split; [|split].
  - intros o q Hok. split.
    + apply (observe_success_lookup o q Hok).
    + intros h Hne. by apply (observe_lookup_other o q h).
  - intros evs v. rewrite store_attempts_observe_all_wrap. simpl.
    by rewrite store_attempts_empty.
  - intros evs v Hpos Hmax.
    rewrite store_attempts_observe_all_exact; simpl.
    + by rewrite store_attempts_empty.
    + intros h x Hx. by rewrite lookup_empty in Hx.
    + done.
    + by rewrite store_attempts_empty.
Qed.

Lemma ObserveQuery_success_merges_event_witness :
  metrics (ObserveQuery two_host_observer
             (ok_event "10.0.0.1" 2 25500000)).1 !! "10.0.0.1"
  = Some {| attempts := 6; latency := 425 |}
  ∧ store_attempts (metrics (observe_all main_observer sample_events))
    = sum_attempts (successes sample_events)
  ∧ sum_attempts (successes sample_events) = 4.
Proof.
  destruct ObserveQuery_success_merges_event as (Hstep & _ & Hsum).
  split; [|split].
  - destruct (Hstep two_host_observer (ok_event "10.0.0.1" 2 25500000))
      as [Hentry _]; [reflexivity|].
    exact Hentry.
  - apply (Hsum sample_events false).
    + vm_compute. repeat constructor; discriminate.
    + vm_compute. discriminate.
  - vm_compute. reflexivity.
Defined.

(** C8: ObserveQuery is not idempotent.  Delivering the same success event
    twice in a row leaves the host's entry at the prior entry plus two times
    the event's attempts and two times its milliseconds (in Go's [int]
    arithmetic, and as plain numbers when those totals fit an [int]); when the
    event reports a non-zero attempt count the second delivery changes the
    store again. *)
Theorem ObserveQuery_duplicate_event_counts_twice (o : testQueryObserver)
    (q : gocql.ObservedQuery) :
  gocql.Err q = None →
  let h := gocql.Host_ConnectAddress q in
  let twice := (ObserveQuery (ObserveQuery o q).1 q).1 in
  metrics twice !! h
  = Some {| attempts := GoInt.wrap (recorded_attempts o h + 2 * event_attempts q);
            latency := GoInt.wrap (recorded_latency o h + 2 * event_millis q) |}
  ∧ (GoInt.in_range (recorded_attempts o h + 2 * event_attempts q) →
     GoInt.in_range (recorded_latency o h + 2 * event_millis q) →
     metrics twice !! h
     = Some {| attempts := recorded_attempts o h + 2 * event_attempts q;
               latency := recorded_latency o h + 2 * event_millis q |})
  ∧ (GoInt.in_range (event_attempts q) → event_attempts q ≠ 0 →
     metrics twice ≠ metrics (ObserveQuery o q).1).
Proof.
  intros Hok h twice.
  assert (Htwice : metrics twice !! h
    = Some {| attempts := GoInt.wrap (recorded_attempts o h + 2 * event_attempts q);
              latency := GoInt.wrap (recorded_latency o h + 2 * event_millis q) |}).
  { subst twice h. fold (observe o q). fold (observe (observe o q) q).
    rewrite observe_success_lookup by done.
    unfold recorded_attempts at 1, recorded_latency at 1.
    rewrite observe_success_lookup by done. simpl.
    rewrite !wrap_add_l. do 3 f_equal; lia. }
  split; [exact Htwice|]. split.
  - intros Ha Hl. rewrite Htwice. by rewrite !wrap_id.
  - intros Hrange Hnz Heq.
    assert (Hone : metrics (ObserveQuery o q).1 !! h
      = Some {| attempts := GoInt.wrap (recorded_attempts o h + event_attempts q);
                latency := GoInt.wrap (recorded_latency o h + event_millis q) |})
      by apply (observe_success_lookup o q Hok).
    rewrite <- Heq, Htwice in Hone. injection Hone as Ha _.
    apply wrap_eq_inv in Ha as [k Hk].
    unfold GoInt.in_range, GoInt.min_int, GoInt.max_int in Hrange. lia.
Qed.

Lemma ObserveQuery_duplicate_event_counts_twice_witness :
  metrics (ObserveQuery (ObserveQuery two_host_observer
                           (ok_event "10.0.0.1" 1 10000000)).1
             (ok_event "10.0.0.1" 1 10000000)).1 !! "10.0.0.1"
  = Some {| attempts := 4 + 2 * 1; latency := 400 + 2 * 10 |}
  ∧ metrics (ObserveQuery (ObserveQuery two_host_observer
                             (ok_event "10.0.0.1" 1 10000000)).1
               (ok_event "10.0.0.1" 1 10000000)).1
    ≠ metrics (ObserveQuery two_host_observer (ok_event "10.0.0.1" 1 10000000)).1.
Proof.
  destruct (ObserveQuery_duplicate_event_counts_twice two_host_observer
              (ok_event "10.0.0.1" 1 10000000) eq_refl) as (_ & Hexact & Hdiff).
  split.
  - apply Hexact; vm_compute; split; discriminate.
  - apply Hdiff; [vm_compute; split; discriminate | vm_compute; discriminate].
Defined.

(** C10: latency is kept in whole milliseconds.  A success event adds the
    truncated quotient of its total latency in nanoseconds by 1,000,000 to
    the host's latency; for a latency that is not negative this is the floor
    of the quotient, and an event of less than one millisecond adds nothing.
    The average is reported the same way: every summary line carries the
    truncated quotient of an entry's latency by its attempts, and in a store
    without zero-attempt entries every run completes and prints, for each
    host, the line with that quotient, which for a positive attempts count is
    the plain quotient, with no wrap-around. *)
Theorem latency_accumulates_truncated_milliseconds (o : testQueryObserver)
    (q : gocql.ObservedQuery) :
  gocql.Err q = None →
  let h := gocql.Host_ConnectAddress q in
  let tl := gocql.QueryMetrics.TotalLatency (gocql.Metrics q) in
  recorded_latency (ObserveQuery o q).1 h
  = GoInt.add (recorded_latency o h) (tl ÷ 1000000)
  ∧ (0 <= tl → tl ÷ 1000000 = tl / 1000000)
  ∧ (0 <= tl < 1000000 →
     recorded_latency (ObserveQuery o q).1 h = GoInt.add (recorded_latency o h) 0)
  ∧ (∀ o' res line,
       GetMetrics o' res → line ∈ res.1 →
       ∃ h' x, metrics o' !! h' = Some x ∧ attempts x ≠ 0
               ∧ line = Text (render_summary h' (attempts x)
                                (GoInt.wrap (latency x ÷ attempts x))))
  ∧ (∀ o' res,
       (∀ h' x, metrics o' !! h' = Some x → attempts x ≠ 0) →
       GetMetrics o' res →
       res.2 = None
       ∧ length res.1 = size (metrics o')
       ∧ ∀ h' x, metrics o' !! h' = Some x →
           Text (render_summary h' (attempts x)
                   (GoInt.wrap (latency x ÷ attempts x))) ∈ res.1)
  ∧ (∀ x : hostMetrics,
       GoInt.in_range (latency x) → 0 < attempts x →
       GoInt.div (latency x) (attempts x) = inr (latency x ÷ attempts x)).
Proof.
  intros Hok h tl.
  assert (Hnew : recorded_latency (ObserveQuery o q).1 h
                 = GoInt.add (recorded_latency o h) (tl ÷ 1000000)).
  { unfold recorded_latency at 1. subst h. fold (observe o q).
    by rewrite observe_success_lookup. }
  split; [exact Hnew|]. split; [|split; [|split; [|split]]].
  - intros Htl. by rewrite Z.quot_div_nonneg by lia.
  - intros Htl. rewrite Hnew. by rewrite Z.quot_small.
  - intros o' res line (entries & Hord & <-) Hline.
    destruct (GetMetrics_range_spec entries)
      as (printed & rest & -> & Hnz & Hout & _).
    rewrite Hout in Hline. apply list_elem_of_fmap in Hline as ([h' x] & -> & Hin).
    exists h', x. split; [|split; [|done]].
    + apply elem_of_map_to_list. red in Hord. rewrite <- Hord.
      apply elem_of_app. by left.
    + by apply (proj1 (Forall_forall _ _) Hnz (h', x)).
  - intros o' res Hall (entries & Hord & <-).
    rewrite GetMetrics_range_nonzero
      by (apply (entries_of_store o' entries _ Hord); intros h' x; apply Hall).
    simpl. split; [done|]. split.
    + by rewrite length_fmap, (range_order_length o' entries Hord).
    + intros h' x Hx. apply list_elem_of_fmap. exists (h', x). split; [done|].
      red in Hord. rewrite Hord. by apply elem_of_map_to_list.
  - intros x Hl Ha. rewrite div_nonzero by lia. f_equal. apply wrap_id.
    unfold GoInt.in_range, GoInt.min_int, GoInt.max_int in *.
    destruct (Z.le_gt_cases 0 (latency x)) as [Hpos|Hneg].
    + rewrite Z.quot_div_nonneg by lia.
      pose proof (Z.div_pos (latency x) (attempts x) Hpos Ha).
      assert (latency x / attempts x <= latency x); [|lia].
      apply Z.div_le_upper_bound; [done|]. nia.
    + replace (latency x) with (- (- latency x)) by lia.
      rewrite Z.quot_opp_l by lia. rewrite Z.quot_div_nonneg by lia.
      pose proof (Z.div_pos (- latency x) (attempts x) ltac:(lia) Ha).
      assert (- latency x / attempts x <= - latency x); [|lia].
      apply Z.div_le_upper_bound; [done|]. nia.
Qed.

Lemma latency_accumulates_truncated_milliseconds_witness :
  recorded_latency (ObserveQuery two_host_observer
                      (ok_event "10.0.0.1" 1 999999)).1 "10.0.0.1" = 400
  ∧ recorded_latency (ObserveQuery two_host_observer
                        (ok_event "10.0.0.1" 1 25500000)).1 "10.0.0.1" = 425
  ∧ (GetMetrics_run two_host_observer).2 = None
  ∧ Text ("Host: 10.0.0.2, Attempts: 3, Avg Latency: 333ms" +:+ newline)
    ∈ (GetMetrics_run two_host_observer).1
  ∧ GoInt.div 1000 3 = inr 333.
Proof.
  split; [|split].
  - destruct (latency_accumulates_truncated_milliseconds two_host_observer
                (ok_event "10.0.0.1" 1 999999) eq_refl) as (_ & _ & Hsmall & _).
    apply Hsmall. simpl. lia.
  - destruct (latency_accumulates_truncated_milliseconds two_host_observer
                (ok_event "10.0.0.1" 1 25500000) eq_refl) as (Hadd & _).
    exact Hadd.
  - destruct (latency_accumulates_truncated_milliseconds two_host_observer
                (ok_event "10.0.0.1" 1 25500000) eq_refl)
      as (_ & _ & _ & _ & Hrun & Hdiv).
    destruct (Hrun two_host_observer (GetMetrics_run two_host_observer))
      as (Hdone & _ & Hlines).
    + intros h x. unfold two_host_observer. simpl.
      rewrite !lookup_insert. repeat case_decide.
      * intros [= <-]. simpl. lia.
      * intros [= <-]. simpl. lia.
      * by rewrite lookup_empty.
    + apply GetMetrics_run_possible.
    + split; [exact Hdone|]. split.
      * apply (Hlines "10.0.0.2" {| attempts := 3; latency := 1000 |}).
        vm_compute. reflexivity.
      * apply (Hdiv {| attempts := 3; latency := 1000 |}).
        -- vm_compute. split; discriminate.
        -- simpl. lia.
Defined.

(** C7, as the code has it: starting from the empty store, and provided that
    every success event for a host reports at least one attempt and that
    their total fits an [int], an entry that exists for the host has an
    attempts count of at least 1, namely the sum of the attempts of the
    host's success events; its latency is the sum, in Go's [int] arithmetic,
    of the milliseconds of those success events, and the host has at least
    one of them.  Events with an error contribute to neither field. *)
Theorem store_invariant_from_empty (evs : list gocql.ObservedQuery) (v : bool)
    (h : string) (x : hostMetrics) :
  Forall (λ q, 1 <= event_attempts q) (successes_on h evs) →
  sum_attempts (successes_on h evs) <= GoInt.max_int →
  metrics (observe_all {| metrics := ∅; verbose := v |} evs) !! h = Some x →
  1 <= attempts x
  ∧ attempts x = sum_attempts (successes_on h evs)
  ∧ latency x = GoInt.wrap (sum_millis (successes_on h evs))
  ∧ successes_on h evs ≠ [].
Proof.
  intros Hall Hmax. rewrite observe_all_lookup.
  unfold recorded_attempts, recorded_latency. simpl. rewrite lookup_empty.
  destruct (successes_on h evs) as [|q rest] eqn:Hs; [done|].
  pose proof (sum_attempts_pos (q :: rest) Hall ltac:(done)) as Hpos.
  set (a := sum_attempts (q :: rest)) in *.
  set (l := sum_millis (q :: rest)) in *.
  intros [= <-]. cbn [attempts latency]. rewrite !Z.add_0_l.
  rewrite (wrap_id a).
  - split; [lia|]. split; [done|]. split; done.
  - unfold GoInt.in_range, GoInt.min_int, GoInt.max_int in *. lia.
Qed.

Lemma store_invariant_from_empty_witness :
  metrics (observe_all main_observer sample_events) !! "10.0.0.2"
  = Some {| attempts := 2; latency := 25 |}
  ∧ 1 <= 2
  ∧ 2 = sum_attempts (successes_on "10.0.0.2" sample_events).
Proof.
  assert (Hx : metrics (observe_all main_observer sample_events) !! "10.0.0.2"
               = Some {| attempts := 2; latency := 25 |})
    by (vm_compute; reflexivity).
  split; [exact Hx|].
  destruct (store_invariant_from_empty sample_events false "10.0.0.2"
              {| attempts := 2; latency := 25 |}) as (Hone & Hsum & _).
  - vm_compute. repeat constructor; discriminate.
  - vm_compute. discriminate.
  - exact Hx.
  - split; [exact Hone | exact Hsum].
Defined.

(** C7 fails as stated: a success event that reports zero attempts, delivered
    to the empty store, creates an entry whose attempts count is 0. *)
Lemma zero_attempts_event_creates_zero_entry :
  gocql.Err (ok_event "10.0.0.3" 0 0) = None
  ∧ metrics (observe_all main_observer [ok_event "10.0.0.3" 0 0]) !! "10.0.0.3"
    = Some {| attempts := 0; latency := 0 |}
  ∧ ¬ (∀ h x,
         metrics (observe_all main_observer [ok_event "10.0.0.3" 0 0]) !! h
         = Some x →
         1 <= attempts x).
Proof.
  assert (Hx : metrics (observe_all main_observer [ok_event "10.0.0.3" 0 0])
               !! "10.0.0.3" = Some {| attempts := 0; latency := 0 |})
    by (vm_compute; reflexivity).
  split; [reflexivity|]. split; [exact Hx|].
  intros Hinv. specialize (Hinv _ _ Hx). simpl in Hinv. lia.
Qed.

(** C3, as the code has it: [GetMetrics] has no defence against zero
    attempts.  A run panics with an integer division by zero exactly when
    some entry of the store has attempts = 0, and completes exactly when none
    has.  A run that panics prints fewer lines than the store has hosts; the
    lines a run prints are the ordinary summary lines of entries whose
    attempts are not zero, so no zero-attempt host is reported in any form. *)
Theorem GetMetrics_panics_iff_zero_attempts (o : testQueryObserver)
    (res : list stdout * option GoInt.panic) :
  GetMetrics o res →
  (res.2 = Some GoInt.IntegerDivideByZero
   ↔ ∃ h x, metrics o !! h = Some x ∧ attempts x = 0)
  ∧ (res.2 = None ↔ ∀ h x, metrics o !! h = Some x → attempts x ≠ 0)
  ∧ (res.2 = Some GoInt.IntegerDivideByZero →
     (length res.1 < size (metrics o))%nat)
  ∧ (∀ line, line ∈ res.1 →
       ∃ h x, metrics o !! h = Some x ∧ attempts x ≠ 0
              ∧ line = summary_of (h, x)).
Proof.
  intros (entries & Hord & <-).
  destruct (GetMetrics_range_spec entries)
    as (printed & rest & Hsplit & Hnz & Hout & Hres).
  assert (Hin : ∀ h x, (h, x) ∈ entries ↔ metrics o !! h = Some x).
  { intros h x. red in Hord. rewrite Hord. apply elem_of_map_to_list. }
  assert (Hlast : ∀ line, line ∈ (GetMetrics_range entries).1 →
            ∃ h x, metrics o !! h = Some x ∧ attempts x ≠ 0
                   ∧ line = summary_of (h, x)).
  { intros line. rewrite Hout. intros ([h x] & -> & Hx)%list_elem_of_fmap.
    exists h, x. split; [|split; [|done]].
    - apply Hin. rewrite Hsplit. apply elem_of_app. by left.
    - by apply (proj1 (Forall_forall _ _) Hnz (h, x)). }
  destruct rest as [|[h0 x0] rest].
  - rewrite app_nil_r in Hsplit. subst printed. rewrite Hres.
    assert (Hall : ∀ h x, metrics o !! h = Some x → attempts x ≠ 0).
    { intros h x Hx%Hin. by apply (proj1 (Forall_forall _ _) Hnz (h, x)). }
    split; [|split; [|split]]; [| |done|done].
    + split; [done|]. intros (h & x & Hx & Hz). by destruct (Hall h x Hx).
    + by split.
  - destruct Hres as [Hz ->]. simpl in Hz.
    assert (Hzero : ∃ h x, metrics o !! h = Some x ∧ attempts x = 0).
    { exists h0, x0. split; [|done]. apply Hin. rewrite Hsplit.
      apply elem_of_app. right. by left. }
    split; [|split; [|split]]; [| | |done].
    + by split.
    + split; [done|]. intros Hall. destruct Hzero as (h & x & Hx & Hxz).
      by destruct (Hall h x Hx).
    + intros _. rewrite <- (range_order_length o entries Hord).
      rewrite Hout, Hsplit, length_fmap, length_app. simpl. lia.
Qed.

Lemma GetMetrics_panics_iff_zero_attempts_witness :
  GetMetrics zero_attempts_observer (GetMetrics_run zero_attempts_observer)
  ∧ ((GetMetrics_run zero_attempts_observer).2
     = Some GoInt.IntegerDivideByZero
     ↔ ∃ h x, metrics zero_attempts_observer !! h = Some x ∧ attempts x = 0).
Proof.
  split; [apply GetMetrics_run_possible|].
  exact (proj1 (GetMetrics_panics_iff_zero_attempts zero_attempts_observer
                  (GetMetrics_run zero_attempts_observer)
                  (GetMetrics_run_possible zero_attempts_observer))).
Defined.

(** C3 fails as stated: on a store whose one entry has attempts = 0, every
    run of [GetMetrics] stops with an integer division by zero; the host is
    neither skipped nor reported. *)
Lemma GetMetrics_zero_attempts_divides_by_zero :
  metrics zero_attempts_observer !! "10.0.0.3"
  = Some {| attempts := 0; latency := 0 |}
  ∧ GetMetrics_run zero_attempts_observer
    = ([], Some GoInt.IntegerDivideByZero)
  ∧ ∀ res, GetMetrics zero_attempts_observer res →
           res.2 = Some GoInt.IntegerDivideByZero.
Proof.
  split; [vm_compute; reflexivity|]. split; [vm_compute; reflexivity|].
  intros res Hres. by rewrite (GetMetrics_zero_attempts_observer res Hres).
Qed.

(** C6, as the code has it: for every store in which no entry has zero
    attempts, every run of [GetMetrics] completes and prints exactly one line
    per host present in the store, the lines being (in the order of the
    range) the texts [Host: <id>, Attempts: <n>, Avg Latency: <ms>ms] where
    <ms> is the entry's latency divided by its attempts, truncated; an entry
    with attempts = 4 and latency = 400 is reported with 100ms. *)
Theorem GetMetrics_prints_one_line_per_host (o : testQueryObserver)
    (res : list stdout * option GoInt.panic) :
  (∀ h x, metrics o !! h = Some x → attempts x ≠ 0) →
  GetMetrics o res →
  res.2 = None
  ∧ res.1 ≡ₚ summary_of <$> map_to_list (metrics o)
  ∧ length res.1 = size (metrics o)
  ∧ (∀ h x, metrics o !! h = Some x →
       Text ("Host: " +:+ h +:+ ", Attempts: " +:+ pretty (attempts x)
             +:+ ", Avg Latency: "
             +:+ pretty (GoInt.wrap (latency x ÷ attempts x))
             +:+ "ms" +:+ newline) ∈ res.1)
  ∧ (∀ h, GetMetrics_range [(h, {| attempts := 4; latency := 400 |})]
          = ([Text ("Host: " +:+ h
                    +:+ ", Attempts: 4, Avg Latency: 100ms" +:+ newline)],
             None)).
Proof.
  intros Hall (entries & Hord & <-).
  rewrite GetMetrics_range_nonzero
    by (apply (entries_of_store o entries _ Hord); intros h x; apply Hall).
  simpl. red in Hord.
  split; [done|]. split; [by rewrite Hord|]. split; [|split].
  - by rewrite length_fmap, Hord, length_map_to_list.
  - intros h x Hx. apply list_elem_of_fmap. exists (h, x). split; [done|].
    rewrite Hord. by apply elem_of_map_to_list.
  - intros h. reflexivity.
Qed.

Lemma GetMetrics_prints_one_line_per_host_witness :
  GetMetrics_run two_host_observer
  = ([Text ("Host: 10.0.0.1, Attempts: 4, Avg Latency: 100ms" +:+ newline);
      Text ("Host: 10.0.0.2, Attempts: 3, Avg Latency: 333ms" +:+ newline)],
     None)
  ∧ (GetMetrics_run two_host_observer).2 = None
  ∧ length (GetMetrics_run two_host_observer).1 = size (metrics two_host_observer).
Proof.
  split; [vm_compute; reflexivity|].
  destruct (GetMetrics_prints_one_line_per_host two_host_observer
              (GetMetrics_run two_host_observer)) as (Hdone & _ & Hlen & _).
  - intros h x. unfold two_host_observer. simpl.
    rewrite !lookup_insert. repeat case_decide.
    + intros [= <-]. simpl. lia.
    + intros [= <-]. simpl. lia.
    + by rewrite lookup_empty.
  - apply GetMetrics_run_possible.
  - split; [exact Hdone | exact Hlen].
Defined.

(** C6 fails as stated: the store holds a host, yet no run of [GetMetrics]
    prints a line for it, because its attempts count is zero. *)
Lemma GetMetrics_zero_attempts_host_has_no_line :
  is_Some (metrics zero_attempts_observer !! "10.0.0.3")
  ∧ size (metrics zero_attempts_observer) = 1%nat
  ∧ ∀ res, GetMetrics zero_attempts_observer res → res.1 = [].
Proof.
  split; [by eexists; vm_compute|]. split; [vm_compute; reflexivity|].
  intros res Hres. by rewrite (GetMetrics_zero_attempts_observer res Hres).
Qed.

(** C4, as the code has it: with the budget [num = 3] that [main] installs,
    [Attempt] returns true whenever the query has made at most 3 attempts,
    3 included, and false whenever it has made 4 or more: the budget check
    allows a 4th attempt and refuses a 5th. *)
Theorem Attempt_budget_three_allows_fourth_attempt :
  (∀ (Q : Type) (R : gocql.RetryableQuery Q) (q : Q),
     (Attempt main_RetryPolicy q = true ↔ gocql.Attempts q <= 3)
     ∧ (Attempt main_RetryPolicy q = false ↔ 4 <= gocql.Attempts q))
  ∧ Attempt main_RetryPolicy {| attempts_made := 3 |} = true
  ∧ Attempt main_RetryPolicy {| attempts_made := 4 |} = false.
Proof.
  split; [|split; reflexivity].
  intros Q R q. unfold Attempt, main_RetryPolicy. simpl. split.
  - apply bool_decide_eq_true.
  - rewrite bool_decide_eq_false. lia.
Qed.

(** C4 fails as stated: a query that has already made 3 attempts is allowed
    another one. *)
Lemma Attempt_after_three_attempts_is_true :
  num main_RetryPolicy = 3
  ∧ gocql.Attempts {| attempts_made := 3 |} = 3
  ∧ Attempt main_RetryPolicy {| attempts_made := 3 |} ≠ false.
Proof. split; [reflexivity|]. split; [reflexivity|]. vm_compute. discriminate. Qed.

(** C5: for every query q and budget N, [Attempt] returns true exactly when
    q.Attempts() <= N; two queries, of whatever type, that have made the same
    number of attempts get the same answer; and [GetRetryType] returns the
    same disposition, [Rethrow], for every error.  Both methods only read
    their arguments. *)
Theorem Attempt_iff_within_budget (Q : Type) (R : gocql.RetryableQuery Q)
    (rt : RT) (q : Q) :
  (Attempt rt q = true ↔ gocql.Attempts q <= num rt)
  ∧ (Attempt rt q = false ↔ num rt < gocql.Attempts q)
  ∧ (∀ (Q' : Type) (R' : gocql.RetryableQuery Q') (q' : Q'),
       gocql.Attempts q' = gocql.Attempts q → Attempt rt q' = Attempt rt q)
  ∧ (∀ err err', GetRetryType rt err = GetRetryType rt err')
  ∧ (∀ err, GetRetryType rt err = gocql.Rethrow).
Proof.
  unfold Attempt. split; [|split; [|split; [|split]]].
  - apply bool_decide_eq_true.
  - rewrite bool_decide_eq_false. lia.
  - intros Q' R' q' Heq. by rewrite Heq.
  - reflexivity.
  - reflexivity.
Qed.

Lemma Attempt_iff_within_budget_witness :
  gocql.Attempts {| attempts_made := 2 |} <= num {| num := 5 |}
  ∧ Attempt {| num := 5 |} {| attempts_made := 2 |} = true
  ∧ Attempt {| num := 5 |} {| attempts_made := 1 + 1 |}
    = Attempt {| num := 5 |} {| attempts_made := 2 |}.
Proof.
  destruct (Attempt_iff_within_budget attempted_query _ {| num := 5 |}
              {| attempts_made := 2 |}) as (Hiff & _ & Hsame & _).
  assert (Hle : gocql.Attempts {| attempts_made := 2 |} <= num {| num := 5 |})
    by (simpl; lia).
  split; [exact Hle|]. split; [exact (proj2 Hiff Hle)|].
  apply (Hsame attempted_query _ {| attempts_made := 1 + 1 |}). reflexivity.
Defined.

(** * Further properties of the code *)

(** ** Observations commute and only add hosts *)
Section ObserverAlgebra.

Implicit Types (o : testQueryObserver) (q : gocql.ObservedQuery) (h : string)
  (evs : list gocql.ObservedQuery).

Lemma observer_eq o o' :
  metrics o = metrics o' → verbose o = verbose o' → o = o'.
Proof. destruct o, o'; simpl; congruence. Qed.

Lemma sum_attempts_Permutation evs evs' :
  evs ≡ₚ evs' → sum_attempts evs = sum_attempts evs'.
Proof. induction 1; simpl; lia. Qed.

Lemma sum_millis_Permutation evs evs' :
  evs ≡ₚ evs' → sum_millis evs = sum_millis evs'.
Proof. induction 1; simpl; lia. Qed.

Lemma successes_on_Permutation h evs evs' :
  evs ≡ₚ evs' → successes_on h evs ≡ₚ successes_on h evs'.
Proof. intros Hp. unfold successes_on. by rewrite Hp. Qed.

Lemma successes_on_nonempty h evs :
  successes_on h evs ≠ [] ↔ h ∈ success_hosts evs.
Proof.
  unfold success_hosts, successes, successes_on.
  rewrite elem_of_list_to_set, list_elem_of_fmap. split.
  - intros Hne. destruct (filter _ evs) as [|q rest] eqn:Hf; [done|].
    assert (Hq : q ∈ filter (λ q, gocql.Err q = None
                                   ∧ gocql.Host_ConnectAddress q = h) evs)
      by (rewrite Hf; left).
    apply list_elem_of_filter in Hq as [[Hok Hh] Hin].
    exists q. split; [done|]. by apply list_elem_of_filter.
  - intros (q & -> & [Hok Hin]%list_elem_of_filter) Hnil.
    eapply (filter_nil_not_elem_of _ _ q Hnil); [by split|done].
Qed.

Lemma observe_all_is_Some o evs h :
  is_Some (metrics (observe_all o evs) !! h)
  ↔ is_Some (metrics o !! h) ∨ h ∈ success_hosts evs.
Proof.
  rewrite observe_all_lookup, <- successes_on_nonempty.
  destruct (successes_on h evs) as [|q l].
  - split; [by left | by intros [?|?]].
  - split; [by right | by eexists].
Qed.

Lemma observe_all_dom o evs :
  dom (metrics (observe_all o evs)) = dom (metrics o) ∪ success_hosts evs.
Proof.
  apply set_eq. intros h.
  rewrite elem_of_union, !elem_of_dom. apply observe_all_is_Some.
Qed.

End ObserverAlgebra.

(** X1: the store does not depend on the order in which events are
    delivered: two sequences holding the same events, in any order, leave the
    same observer. *)
Theorem observe_all_order_irrelevant (o : testQueryObserver)
    (evs evs' : list gocql.ObservedQuery) :
  evs ≡ₚ evs' → observe_all o evs = observe_all o evs'.
Proof.
  intros Hp. apply observer_eq; [|by rewrite !observe_all_verbose].
  apply map_eq. intros h. rewrite !observe_all_lookup.
  pose proof (successes_on_Permutation h _ _ Hp) as Hh.
  rewrite (sum_attempts_Permutation _ _ Hh), (sum_millis_Permutation _ _ Hh).
  destruct (successes_on h evs) as [|q l], (successes_on h evs') as [|q' l'];
    try done.
  - by apply Permutation_nil_l in Hh.
  - by apply Permutation_nil_r in Hh.
Qed.

Lemma observe_all_order_irrelevant_witness :
  sample_events ≡ₚ rev sample_events
  ∧ observe_all two_host_observer sample_events
    = observe_all two_host_observer (rev sample_events).
Proof.
  assert (Hp : sample_events ≡ₚ rev sample_events)
    by (symmetry; apply Permutation_rev).
  split; [exact Hp|].
  exact (observe_all_order_irrelevant two_host_observer _ _ Hp).
Defined.

(** X2: the hosts recorded after a sequence of events are the hosts recorded
    before it together with the hosts that have a success event in it; no
    entry is ever removed, and an event with an error never adds a host. *)
Theorem observe_all_hosts (o : testQueryObserver)
    (evs : list gocql.ObservedQuery) :
  dom (metrics (observe_all o evs)) = dom (metrics o) ∪ success_hosts evs
  ∧ (∀ h, is_Some (metrics o !! h) →
          is_Some (metrics (observe_all o evs) !! h))
  ∧ (∀ h, metrics o !! h = None → h ∉ success_hosts evs →
          metrics (observe_all o evs) !! h = None).
Proof.
  split; [apply observe_all_dom|]. split.
  - intros h Hh. apply observe_all_is_Some. by left.
  - intros h Hnone Hno. apply eq_None_not_Some. rewrite observe_all_is_Some.
    intros [Hs|Hs]; [|done]. rewrite Hnone in Hs. by destruct Hs.
Qed.

Lemma observe_all_hosts_witness :
  dom (metrics (observe_all main_observer sample_events))
  = {["10.0.0.1"; "10.0.0.2"]}
  ∧ metrics (observe_all main_observer
               [failed_event "10.0.0.7" 4 40000000000]) !! "10.0.0.7" = None.
Proof.
  split.
  - rewrite (proj1 (observe_all_hosts main_observer sample_events)).
    vm_compute. reflexivity.
  - apply (observe_all_hosts main_observer
             [failed_event "10.0.0.7" 4 40000000000]).
    + reflexivity.
    + vm_compute. intros H. inversion H.
Defined.

(** ** What a run of the observer prints *)
Section ObserverOutput.

Implicit Types (o : testQueryObserver) (q : gocql.ObservedQuery)
  (evs : list gocql.ObservedQuery).

Lemma ObserveQuery_seq_cons o q evs :
  ObserveQuery_seq o (q :: evs)
  = ((ObserveQuery_seq (observe o q) evs).1,
     (ObserveQuery o q).2 ++ (ObserveQuery_seq (observe o q) evs).2).
Proof.
  cbn [ObserveQuery_seq]. unfold observe.
  destruct (ObserveQuery o q) as [o1 out1]. cbn [fst snd].
  by destruct (ObserveQuery_seq o1 evs).
Qed.

Lemma ObserveQuery_seq_store o evs : (ObserveQuery_seq o evs).1 = observe_all o evs.
Proof.
  revert o. induction evs as [|q evs IH]; intros o; [done|].
  by rewrite ObserveQuery_seq_cons, observe_all_cons, <- IH.
Qed.

Lemma ObserveQuery_seq_output o evs :
  (ObserveQuery_seq o evs).2
  = if verbose o
    then (λ q, ObservedLine q (gocql.Host_ConnectAddress q)) <$> evs
    else [].
Proof.
  revert o. induction evs as [|q evs IH]; intros o; [by destruct (verbose o)|].
  rewrite ObserveQuery_seq_cons. cbn [snd]. rewrite IH, observe_verbose.
  unfold ObserveQuery. cbn [snd]. by destruct (verbose o).
Qed.

Lemma observe_all_metrics_verbose (m : gmap string hostMetrics) (v v' : bool) evs :
  metrics (observe_all {| metrics := m; verbose := v |} evs)
  = metrics (observe_all {| metrics := m; verbose := v' |} evs).
Proof.
  apply map_eq. intros h. rewrite !observe_all_lookup. reflexivity.
Qed.

End ObserverOutput.

(** X3: a verbose observer prints exactly one line per event it is given, in
    the order of delivery and for events with an error as well; an observer
    that is not verbose prints nothing.  The flag is never changed, and the
    store reached does not depend on it. *)
Theorem ObserveQuery_seq_prints_one_line_per_event (m : gmap string hostMetrics)
    (evs : list gocql.ObservedQuery) :
  (ObserveQuery_seq {| metrics := m; verbose := true |} evs).2
  = (λ q, ObservedLine q (gocql.Host_ConnectAddress q)) <$> evs
  ∧ length (ObserveQuery_seq {| metrics := m; verbose := true |} evs).2
    = length evs
  ∧ (ObserveQuery_seq {| metrics := m; verbose := false |} evs).2 = []
  ∧ (∀ v, verbose (ObserveQuery_seq {| metrics := m; verbose := v |} evs).1 = v)
  ∧ metrics (ObserveQuery_seq {| metrics := m; verbose := true |} evs).1
    = metrics (ObserveQuery_seq {| metrics := m; verbose := false |} evs).1.
Proof.
  rewrite !ObserveQuery_seq_output. simpl.
  split; [done|]. split; [by rewrite length_fmap|]. split; [done|]. split.
  - intros v. by rewrite ObserveQuery_seq_store, observe_all_verbose.
  - rewrite !ObserveQuery_seq_store. apply observe_all_metrics_verbose.
Qed.

(** ** From observed events to the summary *)
Section EndToEnd.

Implicit Types (o : testQueryObserver) (q : gocql.ObservedQuery) (h : string)
  (evs : list gocql.ObservedQuery).

Lemma successes_on_of_successes h evs :
  successes_on h evs
  = filter (λ q, gocql.Host_ConnectAddress q = h) (successes evs).
Proof.
  unfold successes_on, successes. rewrite list_filter_filter.
  apply list_filter_iff. intros q. tauto.
Qed.

Lemma Forall_successes_on (P : gocql.ObservedQuery → Prop) h evs :
  Forall P (successes evs) → Forall P (successes_on h evs).
Proof.
  rewrite successes_on_of_successes, !Forall_forall.
  intros H q [_ Hq]%list_elem_of_filter. by apply H.
Qed.

Lemma sum_attempts_filter_le (P : gocql.ObservedQuery → Prop)
    `{∀ q, Decision (P q)} evs :
  Forall (λ q, 0 <= event_attempts q) evs →
  sum_attempts (filter P evs) <= sum_attempts evs.
Proof.
  induction 1 as [|q evs Hq _ IH]; [done|].
  destruct (decide (P q)).
  - rewrite filter_cons_True by done. simpl. lia.
  - rewrite filter_cons_False by done. simpl. lia.
Qed.

Lemma observe_all_empty_store v evs :
  metrics (observe_all {| metrics := ∅; verbose := v |} evs) = ∅
  ↔ successes evs = [].
Proof.
  rewrite <- dom_empty_iff_L, observe_all_dom.
  simpl. rewrite dom_empty_L, (left_id_L ∅ (∪)). unfold success_hosts.
  destruct (successes evs) as [|q l]; [done|]. simpl. split; [|done].
  intros Hset. assert (Hin : gocql.Host_ConnectAddress q ∈ (∅ : gset string)).
  { rewrite <- Hset. set_solver. }
  set_solver.
Qed.

End EndToEnd.

Section EndToEndFacts.

Implicit Types (o : testQueryObserver) (q : gocql.ObservedQuery) (h : string)
  (evs : list gocql.ObservedQuery) (entries : list (string * hostMetrics)).

(** The entries of a store filled from empty by events that report at least
    one attempt each, with a total that fits an [int]. *)
Lemma observe_all_entry_from_empty v evs h x :
  Forall (λ q, 1 <= event_attempts q) (successes evs) →
  sum_attempts (successes evs) <= GoInt.max_int →
  metrics (observe_all {| metrics := ∅; verbose := v |} evs) !! h = Some x →
  x = {| attempts := sum_attempts (successes_on h evs);
         latency := GoInt.wrap (sum_millis (successes_on h evs)) |}
  ∧ 1 <= sum_attempts (successes_on h evs).
Proof.
  intros Hall Hmax. rewrite observe_all_lookup.
  unfold recorded_attempts, recorded_latency. simpl. rewrite lookup_empty.
  pose proof (Forall_successes_on _ h evs Hall) as Hh.
  assert (Hle : sum_attempts (successes_on h evs) <= sum_attempts (successes evs)).
  { rewrite successes_on_of_successes. apply sum_attempts_filter_le.
    eapply Forall_impl; [exact Hall|]. simpl. intros; lia. }
  destruct (successes_on h evs) as [|q rest] eqn:Hs; [done|].
  pose proof (sum_attempts_pos (q :: rest) Hh ltac:(done)) as Hpos.
  set (a := sum_attempts (q :: rest)) in *.
  set (l := sum_millis (q :: rest)) in *.
  intros [= <-]. rewrite !Z.add_0_l, (wrap_id a); [done|].
  unfold GoInt.in_range, GoInt.min_int, GoInt.max_int in *. lia.
Qed.

Lemma GetMetrics_range_stops_at_zero entries e rest :
  Forall (λ e, attempts e.2 ≠ 0) entries → attempts e.2 = 0 →
  GetMetrics_range (entries ++ e :: rest)
  = (summary_of <$> entries, Some GoInt.IntegerDivideByZero).
Proof.
  intros Hnz Hz. induction Hnz as [|[h m] entries Hm _ IH].
  - destruct e as [h m]. simpl in *. by rewrite Hz, div_zero.
  - simpl in *. rewrite div_nonzero by done. by rewrite IH.
Qed.

Lemma millis_bounds evs :
  Forall (λ q, 0 <= gocql.QueryMetrics.TotalLatency (gocql.Metrics q)) evs →
  0 <= sum_millis evs
  ∧ 1000000 * sum_millis evs <= sum_latency evs
  ∧ sum_latency evs <= 1000000 * sum_millis evs + 999999 * Z.of_nat (length evs).
Proof.
  induction 1 as [|q evs Hq _ IH]; [simpl; lia|].
  change (sum_millis (q :: evs)) with (event_millis q + sum_millis evs).
  change (sum_latency (q :: evs))
    with (gocql.QueryMetrics.TotalLatency (gocql.Metrics q) + sum_latency evs).
  change (length (q :: evs)) with (S (length evs)).
  unfold event_millis.
  set (tl := gocql.QueryMetrics.TotalLatency (gocql.Metrics q)) in *.
  rewrite Z.quot_div_nonneg by lia.
  pose proof (Z.div_mod tl 1000000 ltac:(lia)).
  pose proof (Z.mod_pos_bound tl 1000000 ltac:(lia)). lia.
Qed.

End EndToEndFacts.

(** X4: when every success event reports at least one attempt and their
    total fits an [int], the summary printed after the events have been
    delivered to an empty store never panics and has exactly one line for
    each host with a success event: the host's total attempts, and its
    accumulated milliseconds divided by them. *)
Theorem summary_after_observations (evs : list gocql.ObservedQuery) (v : bool)
    (res : list stdout * option GoInt.panic) :
  Forall (λ q, 1 <= event_attempts q) (successes evs) →
  sum_attempts (successes evs) <= GoInt.max_int →
  GetMetrics (observe_all {| metrics := ∅; verbose := v |} evs) res →
  res.2 = None
  ∧ length res.1 = size (success_hosts evs)
  ∧ ∀ h, h ∈ success_hosts evs →
      Text (render_summary h (sum_attempts (successes_on h evs))
              (GoInt.wrap (GoInt.wrap (sum_millis (successes_on h evs))
                           ÷ sum_attempts (successes_on h evs)))) ∈ res.1.
Proof.
  intros Hall Hmax (entries & Hord & <-).
  set (o := observe_all {| metrics := ∅; verbose := v |} evs) in *.
  assert (Hnz : Forall (λ e, attempts e.2 ≠ 0) entries).
  { apply (entries_of_store o entries _ Hord). intros h x Hx. simpl.
    destruct (observe_all_entry_from_empty v evs h x Hall Hmax Hx) as [-> Hpos].
    simpl. lia. }
  rewrite GetMetrics_range_nonzero by done. simpl.
  split; [done|]. split.
  - rewrite length_fmap, (range_order_length o entries Hord).
    rewrite <- size_dom. subst o. rewrite observe_all_dom. simpl.
    by rewrite dom_empty_L, (left_id_L ∅ (∪)).
  - intros h Hh.
    assert (His : is_Some (metrics o !! h))
      by (apply observe_all_is_Some; by right).
    destruct His as [x Hx].
    destruct (observe_all_entry_from_empty v evs h x Hall Hmax Hx) as [Hxeq _].
    apply list_elem_of_fmap. exists (h, x). split.
    + unfold summary_of. simpl. by rewrite Hxeq.
    + red in Hord. rewrite Hord. by apply elem_of_map_to_list.
Qed.

Lemma summary_after_observations_witness :
  GetMetrics_run (observe_all main_observer sample_events)
  = ([Text ("Host: 10.0.0.1, Attempts: 2, Avg Latency: 6ms" +:+ newline);
      Text ("Host: 10.0.0.2, Attempts: 2, Avg Latency: 12ms" +:+ newline)],
     None)
  ∧ (GetMetrics_run (observe_all main_observer sample_events)).2 = None
  ∧ length (GetMetrics_run (observe_all main_observer sample_events)).1
    = size (success_hosts sample_events).
Proof.
  split; [vm_compute; reflexivity|].
  destruct (summary_after_observations sample_events false
              (GetMetrics_run (observe_all main_observer sample_events)))
    as (Hdone & Hlen & _).
  - vm_compute. repeat constructor; discriminate.
  - vm_compute. discriminate.
  - apply GetMetrics_run_possible.
  - split; [exact Hdone | exact Hlen].
Defined.

(** X5: after events delivered to an empty store, the summary is empty (no
    line, no panic) exactly when none of the events was a success: failed
    queries leave no trace in the report. *)
Theorem summary_empty_iff_no_success (evs : list gocql.ObservedQuery) (v : bool)
    (res : list stdout * option GoInt.panic) :
  GetMetrics (observe_all {| metrics := ∅; verbose := v |} evs) res →
  res = ([], None) ↔ successes evs = [].
Proof.
  intros (entries & Hord & <-). red in Hord.
  rewrite <- (observe_all_empty_store v evs), <- map_to_list_empty_iff.
  split.
  - intros Hres. destruct entries as [|[h m] entries].
    + symmetry in Hord. by apply Permutation_nil_r in Hord.
    + exfalso. simpl in Hres.
      destruct (GoInt.div (latency m) (attempts m)); [done|].
      by destruct (GetMetrics_range entries).
  - intros Hnil. rewrite Hnil in Hord. by apply Permutation_nil_r in Hord as ->.
Qed.

Lemma summary_empty_iff_no_success_witness :
  successes [failed_event "10.0.0.2" 4 40000000000;
             failed_event "10.0.0.1" 4 40000000000] = []
  ∧ GetMetrics_run (observe_all main_observer
                      [failed_event "10.0.0.2" 4 40000000000;
                       failed_event "10.0.0.1" 4 40000000000])
    = ([], None).
Proof.
  assert (Hno : successes [failed_event "10.0.0.2" 4 40000000000;
                           failed_event "10.0.0.1" 4 40000000000] = [])
    by (vm_compute; reflexivity).
  split; [exact Hno|].
  exact (proj2 (summary_empty_iff_no_success
                  [failed_event "10.0.0.2" 4 40000000000;
                   failed_event "10.0.0.1" 4 40000000000] false _
                  (GetMetrics_run_possible _)) Hno).
Defined.

(** X6: in a store without zero-attempt entries, the average reported for a
    host with a positive attempts count and a latency that is not negative
    is the quotient rounded down: multiplied by the attempts it never exceeds
    the recorded latency and falls short of it by less than the attempts. *)
Theorem reported_average_rounds_down (o : testQueryObserver)
    (res : list stdout * option GoInt.panic) (h : string) (x : hostMetrics) :
  (∀ h' x', metrics o !! h' = Some x' → attempts x' ≠ 0) →
  GetMetrics o res →
  metrics o !! h = Some x →
  0 < attempts x →
  0 <= latency x <= GoInt.max_int →
  ∃ avg,
    Text (render_summary h (attempts x) avg) ∈ res.1
    ∧ attempts x * avg <= latency x < attempts x * (avg + 1)
    ∧ 0 <= avg <= latency x.
Proof.
  intros Hall (entries & Hord & <-) Hx Hn Hl.
  rewrite GetMetrics_range_nonzero
    by (apply (entries_of_store o entries _ Hord); intros h' x'; apply Hall).
  simpl. exists (latency x ÷ attempts x).
  rewrite Z.quot_div_nonneg by lia.
  pose proof (Z.div_mod (latency x) (attempts x) ltac:(lia)) as Hdm.
  pose proof (Z.mod_pos_bound (latency x) (attempts x) Hn) as Hmod.
  assert (Hq : 0 <= latency x / attempts x) by (apply Z.div_pos; lia).
  assert (Hle : latency x / attempts x <= latency x).
  { apply Z.div_le_upper_bound; [done|]. nia. }
  split; [|split; [nia | lia]].
  apply list_elem_of_fmap. exists (h, x). split.
  - unfold summary_of. simpl. rewrite Z.quot_div_nonneg by lia.
    rewrite wrap_id; [done|].
    unfold GoInt.in_range, GoInt.min_int, GoInt.max_int in *. lia.
  - red in Hord. rewrite Hord. by apply elem_of_map_to_list.
Qed.

Lemma reported_average_rounds_down_witness :
  metrics two_host_observer !! "10.0.0.2"
  = Some {| attempts := 3; latency := 1000 |}
  ∧ ∃ avg,
      Text (render_summary "10.0.0.2" 3 avg) ∈ (GetMetrics_run two_host_observer).1
      ∧ 3 * avg <= 1000 < 3 * (avg + 1)
      ∧ 0 <= avg <= 1000.
Proof.
  assert (Hx : metrics two_host_observer !! "10.0.0.2"
               = Some {| attempts := 3; latency := 1000 |})
    by (vm_compute; reflexivity).
  split; [exact Hx|].
  apply (reported_average_rounds_down two_host_observer
           (GetMetrics_run two_host_observer) "10.0.0.2"
           {| attempts := 3; latency := 1000 |}).
  - intros h x. unfold two_host_observer. simpl.
    rewrite !lookup_insert. repeat case_decide.
    + intros [= <-]. simpl. lia.
    + intros [= <-]. simpl. lia.
    + by rewrite lookup_empty.
  - apply GetMetrics_run_possible.
  - exact Hx.
  - simpl. lia.
  - simpl. unfold GoInt.max_int. lia.
Defined.

(** X7: keeping whole milliseconds loses less than one millisecond per
    success event.  For a host whose success events report latencies that are
    not negative, with a millisecond total that fits an [int], 1,000,000
    times the recorded latency is at most the nanoseconds those events
    reported, and short of them by at most 999,999 per event. *)
Theorem recorded_latency_truncation_loss (evs : list gocql.ObservedQuery)
    (v : bool) (h : string) (x : hostMetrics) :
  Forall (λ q, 0 <= gocql.QueryMetrics.TotalLatency (gocql.Metrics q))
         (successes_on h evs) →
  sum_millis (successes_on h evs) <= GoInt.max_int →
  metrics (observe_all {| metrics := ∅; verbose := v |} evs) !! h = Some x →
  1000000 * latency x <= sum_latency (successes_on h evs)
  ∧ sum_latency (successes_on h evs)
    <= 1000000 * latency x + 999999 * Z.of_nat (length (successes_on h evs)).
Proof.
  intros Hpos Hmax. rewrite observe_all_lookup.
  unfold recorded_attempts, recorded_latency. simpl. rewrite lookup_empty.
  destruct (millis_bounds _ Hpos) as (H0 & Hlo & Hhi).
  destruct (successes_on h evs) as [|q rest] eqn:Hs; [done|].
  set (l := sum_millis (q :: rest)) in *.
  intros [= <-]. cbn [latency]. rewrite Z.add_0_l, (wrap_id l); [done|].
  unfold GoInt.in_range, GoInt.min_int, GoInt.max_int in *. lia.
Qed.

Lemma recorded_latency_truncation_loss_witness :
  metrics (observe_all main_observer sample_events) !! "10.0.0.1"
  = Some {| attempts := 2; latency := 12 |}
  ∧ sum_latency (successes_on "10.0.0.1" sample_events) = 12999999
  ∧ 1000000 * 12 <= sum_latency (successes_on "10.0.0.1" sample_events).
Proof.
  assert (Hx : metrics (observe_all main_observer sample_events) !! "10.0.0.1"
               = Some {| attempts := 2; latency := 12 |})
    by (vm_compute; reflexivity).
  split; [exact Hx|]. split; [vm_compute; reflexivity|].
  destruct (recorded_latency_truncation_loss sample_events false "10.0.0.1"
              {| attempts := 2; latency := 12 |}) as [Hlo _].
  - vm_compute. repeat constructor; discriminate.
  - vm_compute. discriminate.
  - exact Hx.
  - exact Hlo.
Defined.

(** X8: the retry budget is monotone.  If a query is allowed another attempt,
    so is any query that has made no more attempts, under any budget that is
    no smaller: once the policy refuses it keeps refusing as attempts grow.
    A budget below 1 refuses every query that has made an attempt. *)
Theorem Attempt_monotone (Q : Type) (R : gocql.RetryableQuery Q)
    (rt rt' : RT) (q q' : Q) :
  (gocql.Attempts q' <= gocql.Attempts q → num rt <= num rt' →
   Attempt rt q = true → Attempt rt' q' = true)
  ∧ (gocql.Attempts q <= gocql.Attempts q' → num rt' <= num rt →
     Attempt rt q = false → Attempt rt' q' = false)
  ∧ (num rt < 1 → 1 <= gocql.Attempts q → Attempt rt q = false).
Proof.
  unfold Attempt. rewrite !bool_decide_eq_true, !bool_decide_eq_false.
  repeat split; intros; lia.
Qed.

Lemma Attempt_monotone_witness :
  Attempt main_RetryPolicy {| attempts_made := 3 |} = true
  ∧ Attempt {| num := 5 |} {| attempts_made := 2 |} = true
  ∧ Attempt {| num := 0 |} {| attempts_made := 1 |} = false.
Proof.
  assert (H3 : Attempt main_RetryPolicy {| attempts_made := 3 |} = true)
    by reflexivity.
  split; [exact H3|]. split.
  - apply (proj1 (Attempt_monotone attempted_query _ main_RetryPolicy
                    {| num := 5 |} {| attempts_made := 3 |}
                    {| attempts_made := 2 |})); [simpl; lia | simpl; lia | exact H3].
  - apply (proj2 (proj2 (Attempt_monotone attempted_query _ {| num := 0 |}
                           {| num := 0 |} {| attempts_made := 1 |}
                           {| attempts_made := 1 |}))); simpl; lia.
Defined.

(** X9: when some entry has zero attempts, how much of the summary is printed
    before the panic depends on the order of the map range: there is a run
    that prints nothing at all, and a run that prints the line of every host
    whose attempts are not zero; both end in the division by zero. *)
Theorem GetMetrics_output_before_panic_varies (o : testQueryObserver) :
  (∃ h x, metrics o !! h = Some x ∧ attempts x = 0) →
  GetMetrics o ([], Some GoInt.IntegerDivideByZero)
  ∧ GetMetrics o
      (summary_of <$> filter (λ e, attempts e.2 ≠ 0) (map_to_list (metrics o)),
       Some GoInt.IntegerDivideByZero).
Proof.
  intros (h & x & Hx & Hz).
  assert (Hin : (h, x) ∈ map_to_list (metrics o))
    by by apply elem_of_map_to_list.
  split.
  - apply elem_of_Permutation in Hin as [k Hk].
    exists ((h, x) :: k). split; [by red|]. simpl. by rewrite Hz, div_zero.
  - set (l := map_to_list (metrics o)) in *.
    assert (Hzin : (h, x) ∈ filter (λ e, ¬ attempts e.2 ≠ 0) l).
    { apply list_elem_of_filter. split; [simpl; lia | done]. }
    destruct (filter (λ e, ¬ attempts e.2 ≠ 0) l) as [|e rest] eqn:Hf;
      [by apply not_elem_of_nil in Hzin|].
    exists (filter (λ e, attempts e.2 ≠ 0) l ++ e :: rest). split.
    + red. rewrite <- Hf. apply filter_app_complement.
    + apply GetMetrics_range_stops_at_zero.
      * apply Forall_forall. by intros e' [He' _]%list_elem_of_filter.
      * assert (He : e ∈ filter (λ e, ¬ attempts e.2 ≠ 0) l)
          by (rewrite Hf; left).
        apply list_elem_of_filter in He as [He _]. simpl in He. lia.
Qed.

Lemma GetMetrics_output_before_panic_varies_witness :
  GetMetrics mixed_observer ([], Some GoInt.IntegerDivideByZero)
  ∧ GetMetrics mixed_observer
      ([Text ("Host: 10.0.0.1, Attempts: 4, Avg Latency: 100ms" +:+ newline)],
       Some GoInt.IntegerDivideByZero).
Proof.
  apply (GetMetrics_output_before_panic_varies mixed_observer).
  exists "10.0.0.3", {| attempts := 0; latency := 0 |}.
  split; [vm_compute; reflexivity | reflexivity].
Defined.
